(** * ASTRA flight tools: gas sizing, venting profiles and drag

    A shallow embedding of [astra/flight_tools.py] and the properties of its
    five methods.

    Numbers.  The methods take and return Python [float]s.  They are modelled
    as real numbers: the arithmetic is the exact one that the float
    operations approximate, so rounding, overflow and the non-finite values
    are outside the model.  What Python does on top of the arithmetic is kept:
    a float division whose divisor is zero raises [ZeroDivisionError], and a
    negative float raised to a fractional power raises [ValueError].  Every
    method is therefore a function into [result], and every [/] of the source
    is a [//] of the model. *)

From Stdlib Require Import Reals Lra List.
Import ListNotations.

Open Scope R_scope.

(** ** Python outcomes *)

Module Py.

Inductive exn : Type :=
| ZeroDivisionError
| ValueError.

Inductive result (A : Type) : Type :=
| Ok (a : A)
| Raise (e : exn).

Arguments Ok {A} a.
Arguments Raise {A} e.

Definition bind {A B : Type} (m : result A) (k : A -> result B) : result B :=
  match m with
  | Ok a => k a
  | Raise e => Raise e
  end.

(** [x / y] on floats. *)
Definition float_div (x y : R) : result R :=
  if Req_dec_T y 0 then Raise ZeroDivisionError else Ok (x / y).

(** [x ** y] on floats: CPython's [float_pow], without the non-finite
    cases.  A negative base with a fractional exponent is an error in
    Python 2, for which the module was written ([1. / 3], [float(ventStart)]);
    Python 3 answers with a complex number there, which is no float either. *)
Definition float_pow (x y : R) : result R :=
  if Req_dec_T y 0 then Ok 1
  else if Req_dec_T x 0 then
    if Rlt_dec y 0 then Raise ZeroDivisionError else Ok 0
  else if Rlt_dec x 0 then
    if Req_dec_T (frac_part y) 0 then Ok (powerRZ x (Int_part y))
    else Raise ValueError
  else Ok (Rpower x y).

(** [returns m] : the call ends with a value, not with an exception. *)
Definition returns {A : Type} (m : result A) : Prop := exists a, m = Ok a.

End Py.

Import Py.

Declare Scope py_scope.
Delimit Scope py_scope with py.
Notation "x <- m ;; k" := (bind m (fun x => k))
  (at level 61, m at next level, right associativity) : py_scope.
Infix "//" := float_div (at level 40, left associativity) : py_scope.
Infix "**" := float_pow (at level 30, right associativity) : py_scope.
Open Scope py_scope.

(** ** The class *)

(** The calibration attributes of an instance.  The simulator assigns them
    before a flight; the class body gives the values of an instance on which
    nothing was assigned. *)
Record flight_tools : Type := {
  highCD : R;
  lowCD : R;
  transition : R;
  ReBand : R;
  parachuteAref : R;
  parachuteCD : R
}.

Definition unset : flight_tools :=
  {| highCD := 0; lowCD := 0; transition := 0; ReBand := 0;
     parachuteAref := 0; parachuteCD := 0 |}.

(** A calibrated instance, for the examples: coefficients 0.45 and 0.2, the
    transition at a Reynolds number of 3.3e5 and a band of 0.7e5. *)
Definition calibrated : flight_tools :=
  {| highCD := 0.45; lowCD := 0.2; transition := 3.3; ReBand := 0.7;
     parachuteAref := 1.5; parachuteCD := 0.9 |}.

(** The class constants ([R] is the type of the reals here, so the gas
    constant [flight_tools.R] is [R_gas]). *)
Definition R_gas : R := 8.31447.
Definition airMolecularMass : R := 0.02896.
Definition HeMolecularMass : R := 0.004002602.
Definition HydrogenMolecularMass : R := 0.0020159.

(** ** The methods *)

Definition liftingGasMass (self : flight_tools)
    (nozzleLift balloonMass ambientTempC ambientPressMbar gasMolecularMass
     excessPressureCoefficient : R) : result (list R) :=
  gasDensity <-
    excessPressureCoefficient * ambientPressMbar * 100 * gasMolecularMass
      // (R_gas * (ambientTempC + 273.15)) ;;
  airDensity <-
    ambientPressMbar * 100 * airMolecularMass
      // (R_gas * (ambientTempC + 273.15)) ;;
  balloonVolume <- (nozzleLift + balloonMass) // (airDensity - gasDensity) ;;
  let gasMass := balloonVolume * gasDensity in
  sphere <- 6 * balloonVolume // PI ;;
  third <- 1 // 3 ;;
  balloonDiameter <- sphere ** third ;;
  Ok [gasMass; balloonVolume; balloonDiameter].

Definition gasMassForFloat (self : flight_tools)
    (currentAltitude floatingAltitude gasMassAtInflation
     gasMassAtFloatingAltitude ventStart : R) : result R :=
  if Rlt_dec currentAltitude (floatingAltitude - ventStart) then
    Ok gasMassAtInflation
  else if Rlt_dec currentAltitude floatingAltitude then
    slope <- (gasMassAtInflation - gasMassAtFloatingAltitude) // ventStart ;;
    Ok (slope * (floatingAltitude - currentAltitude)
        + gasMassAtFloatingAltitude)
  else
    Ok gasMassAtFloatingAltitude.

Definition nozzleLiftForFloat (self : flight_tools)
    (nozzleLiftAtInflation airDensity gasDensity balloonVolume balloonMass
     currentAltitude floatingAltitude ventStart : R) : result R :=
  if Rlt_dec currentAltitude (floatingAltitude - ventStart) then
    Ok nozzleLiftAtInflation
  else
    let currentNozzleLift :=
      (airDensity - gasDensity) * balloonVolume - balloonMass in
    Ok currentNozzleLift.

(** The [# Balloon CD] block of [balloonDrag]: the coefficient as a
    function of the Reynolds number. *)
Definition balloonCD (self : flight_tools) (reynoldsNumber : R) : result R :=
  if Rlt_dec reynoldsNumber (transition self * 1e5) then
    Ok (highCD self)
  else if Rlt_dec reynoldsNumber ((transition self + ReBand self) * 1e5) then
    position <-
      (reynoldsNumber - transition self * 1e5) // (ReBand self * 1e5) ;;
    Ok (highCD self - (highCD self - lowCD self) * position)
  else
    Ok (lowCD self).

Definition balloonDrag (self : flight_tools)
    (diameter ascentRate density viscosity : R) : result R :=
  reynoldsNumber <- density * Rabs ascentRate * diameter // viscosity ;;
  cd <- balloonCD self reynoldsNumber ;;
  speed2 <- Rabs ascentRate ** 2 ;;
  diameter2 <- diameter ** 2 ;;
  area <- PI * diameter2 // 4 ;;
  Ok (0.5 * density * speed2 * area * cd).

Definition parachuteDrag (self : flight_tools) (descentRate density : R)
    : result R :=
  descentRate2 <- descentRate ** 2 ;;
  Ok (0.5 * density * descentRate2 * parachuteAref self
      * parachuteCD self).

(** The default of the [ventStart] keyword argument. *)
Definition ventStart_default : R := 500.

(** ** The formulas of the specification *)

(** Sections 4.1 and 4.2 of the specification give the quantities below in
    closed form; the theorems compare the methods with them.  They use the
    division of the reals, so they say nothing by themselves about a zero
    divisor: that is what the theorems' hypotheses are for. *)
Definition gasDensity_formula
    (excessPressureCoefficient ambientPressMbar gasMolecularMass
     ambientTempC : R) : R :=
  excessPressureCoefficient * ambientPressMbar * 100 * gasMolecularMass
  / (R_gas * (ambientTempC + 273.15)).

Definition airDensity_formula (ambientPressMbar ambientTempC : R) : R :=
  ambientPressMbar * 100 * airMolecularMass
  / (R_gas * (ambientTempC + 273.15)).

Definition interpolation
    (currentAltitude floatingAltitude gasMassAtInflation
     gasMassAtFloatingAltitude ventStart : R) : R :=
  (gasMassAtInflation - gasMassAtFloatingAltitude) / ventStart
  * (floatingAltitude - currentAltitude) + gasMassAtFloatingAltitude.

(** Continuity at a point of a function that may raise: it returns on a
    neighbourhood of the point and its values tend to the value there. *)
Definition continuous_at (g : R -> result R) (x0 : R) : Prop :=
  exists y0, g x0 = Ok y0 /\
    forall eps, 0 < eps ->
      exists delta, 0 < delta /\
        forall x, Rabs (x - x0) < delta ->
          exists y, g x = Ok y /\ Rabs (y - y0) < eps.

(** ** The float operations *)

Lemma float_div_ok (x y : R) : y <> 0 -> x // y = Ok (x / y).
Proof.
  intros Hy. unfold float_div.
  destruct (Req_dec_T y 0) as [E | _]; [contradiction | reflexivity].
Qed.

Lemma float_div_zero (x : R) : x // 0 = Raise ZeroDivisionError.
Proof.
  unfold float_div.
  destruct (Req_dec_T 0 0) as [_ | N]; [reflexivity | now elim N].
Qed.

Lemma float_div_returns (x y : R) : returns (x // y) <-> y <> 0.
Proof.
  split.
  - intros [q Hq] Hy. subst y. rewrite float_div_zero in Hq. discriminate.
  - intros Hy. exists (x / y). now apply float_div_ok.
Qed.

Lemma Int_part_two : Int_part 2 = 2%Z.
Proof. symmetry. apply Int_part_spec. lra. Qed.

Lemma float_pow_two (x : R) : x ** 2 = Ok (x ^ 2).
Proof.
  unfold float_pow.
  destruct (Req_dec_T 2 0) as [E | _]; [lra |].
  destruct (Req_dec_T x 0) as [-> | Hx].
  - destruct (Rlt_dec 2 0) as [L | _]; [lra |]. f_equal. lra.
  - destruct (Rlt_dec x 0) as [Hneg | Hpos].
    + unfold frac_part. rewrite Int_part_two.
      destruct (Req_dec_T (2 - 2) 0) as [_ | N]; [| lra].
      reflexivity.
    + f_equal. replace 2 with (INR 2) by (simpl; lra).
      apply Rpower_pow. lra.
Qed.

Lemma float_pow_pos (x y : R) : 0 < x -> y <> 0 -> x ** y = Ok (Rpower x y).
Proof.
  intros Hx Hy. unfold float_pow.
  destruct (Req_dec_T y 0) as [E | _]; [contradiction |].
  destruct (Req_dec_T x 0) as [E | _]; [lra |].
  destruct (Rlt_dec x 0) as [L | _]; [lra | reflexivity].
Qed.

Lemma float_pow_zero (y : R) : 0 < y -> 0 ** y = Ok 0.
Proof.
  intros Hy. unfold float_pow.
  destruct (Req_dec_T y 0) as [E | _]; [lra |].
  destruct (Req_dec_T 0 0) as [_ | N]; [| now elim N].
  destruct (Rlt_dec y 0) as [L | _]; [lra | reflexivity].
Qed.

(** On a non-negative float, [** (1/3)] is the cube root. *)
Lemma float_pow_third (x : R) :
  0 <= x -> exists d, x ** (1 / 3) = Ok d /\ 0 <= d /\ d ^ 3 = x.
Proof.
  intros [Hx | <-].
  - exists (Rpower x (1 / 3)). split; [apply float_pow_pos; lra |].
    split; [left; apply exp_pos |].
    assert (Hp : 0 < Rpower x (1 / 3)) by apply exp_pos.
    replace 3%nat with (Z.to_nat 3) by reflexivity.
    rewrite <- (Rpower_pow _ _ Hp), Rpower_mult.
    replace (1 / 3 * INR (Z.to_nat 3)) with 1 by (simpl; lra).
    now apply Rpower_1.
  - exists 0. split; [apply float_pow_zero; lra |]. split; lra.
Qed.

Lemma float_pow_third_negative (x : R) :
  x < 0 -> x ** (1 / 3) = Raise ValueError.
Proof.
  intros Hx. unfold float_pow.
  destruct (Req_dec_T (1 / 3) 0) as [E | _]; [lra |].
  destruct (Req_dec_T x 0) as [E | _]; [lra |].
  destruct (Rlt_dec x 0) as [_ | N]; [| contradiction].
  assert (Hint : Int_part (1 / 3) = 0%Z).
  { symmetry. apply Int_part_spec. lra. }
  unfold frac_part. rewrite Hint.
  destruct (Req_dec_T (1 / 3 - 0) 0) as [E | _]; [lra | reflexivity].
Qed.

(** Steps through a method's body: a division by a divisor that the context
    shows non-zero, a square. *)
Ltac py_step :=
  first
    [ rewrite float_pow_two
    | rewrite float_div_ok by (try assumption; try lra) ];
  cbn [bind].

(** ** Lifting gas sizing *)

Lemma gas_constant_pos : 0 < R_gas.
Proof. unfold R_gas. lra. Qed.

Lemma kelvin_nonzero (ambientTempC : R) :
  ambientTempC + 273.15 <> 0 -> R_gas * (ambientTempC + 273.15) <> 0.
Proof.
  intros HT. apply Rmult_integral_contrapositive_currified; [| exact HT].
  pose proof gas_constant_pos. lra.
Qed.

(** At absolute zero both density formulas are divisions by zero, which the
    reals read as 0. *)
Lemma densities_at_absolute_zero (k P M T : R) :
  T + 273.15 = 0 ->
  gasDensity_formula k P M T = 0 /\ airDensity_formula P T = 0.
Proof.
  intros HT. unfold gasDensity_formula, airDensity_formula.
  rewrite HT, Rmult_0_r. unfold Rdiv. rewrite Rinv_0. split; ring.
Qed.

Lemma liftingGasMass_returns (self : flight_tools) (nl bm T P M k : R) :
  T + 273.15 <> 0 ->
  airDensity_formula P T <> gasDensity_formula k P M T ->
  0 <= (nl + bm) / (airDensity_formula P T - gasDensity_formula k P M T) ->
  exists d,
    liftingGasMass self nl bm T P M k
    = Ok [ (nl + bm) / (airDensity_formula P T - gasDensity_formula k P M T)
           * gasDensity_formula k P M T;
           (nl + bm) / (airDensity_formula P T - gasDensity_formula k P M T);
           d ]
    /\ 0 <= d
    /\ d ^ 3
       = 6 * ((nl + bm)
              / (airDensity_formula P T - gasDensity_formula k P M T)) / PI.
Proof.
  intros HT Hne Hvol.
  pose proof (kelvin_nonzero T HT) as HK.
  pose proof PI_RGT_0 as Hpi.
  unfold liftingGasMass.
  do 2 py_step.
  fold (gasDensity_formula k P M T) (airDensity_formula P T).
  assert (Hd : airDensity_formula P T - gasDensity_formula k P M T <> 0) by lra.
  do 3 py_step.
  set (V := (nl + bm) / _) in *.
  destruct (float_pow_third (6 * V / PI)) as (d & Hpow & Hd0 & Hd3).
  { apply Rmult_le_pos; [lra | left; now apply Rinv_0_lt_compat]. }
  exists d. rewrite Hpow. cbn [bind]. auto.
Qed.



(** The standard atmosphere at sea level with helium, the example of the
    specification: air is denser than the gas. *)
Lemma helium_lighter_than_air :
  airDensity_formula 1013.25 15 > gasDensity_formula 1 1013.25 HeMolecularMass 15.
Proof.
  unfold airDensity_formula, gasDensity_formula, Rdiv,
    airMolecularMass, HeMolecularMass, R_gas.
  apply Rmult_lt_compat_r; [apply Rinv_0_lt_compat |]; lra.
Qed.

(** C1, as amended.  Whenever the temperature is not absolute zero, the two
    densities differ and the volume that the buoyancy equation gives is not
    negative, [liftingGasMass] returns the list [gasMass; balloonVolume;
    balloonDiameter] with the densities of the ideal gas law, balloonVolume =
    (nozzleLift + balloonMass) / (airDensity - gasDensity), gasMass =
    balloonVolume * gasDensity and balloonDiameter the cube root of
    6 * balloonVolume / pi.  In particular, whenever airDensity > gasDensity
    and nozzleLift + balloonMass > 0 it returns, the volume is positive and
    volume * gasDensity = gasMass. *)
Theorem liftingGasMass_sizing (self : flight_tools)
    (nozzleLift balloonMass ambientTempC ambientPressMbar gasMolecularMass
     excessPressureCoefficient : R) :
  let gasDensity :=
    gasDensity_formula excessPressureCoefficient ambientPressMbar
      gasMolecularMass ambientTempC in
  let airDensity := airDensity_formula ambientPressMbar ambientTempC in
  let balloonVolume := (nozzleLift + balloonMass) / (airDensity - gasDensity) in
  (ambientTempC + 273.15 <> 0 -> airDensity <> gasDensity ->
   0 <= balloonVolume ->
   exists balloonDiameter,
     liftingGasMass self nozzleLift balloonMass ambientTempC ambientPressMbar
       gasMolecularMass excessPressureCoefficient
     = Ok [balloonVolume * gasDensity; balloonVolume; balloonDiameter]
     /\ 0 <= balloonDiameter
     /\ balloonDiameter ^ 3 = 6 * balloonVolume / PI)
  /\
  (airDensity > gasDensity -> nozzleLift + balloonMass > 0 ->
   exists gasMass volume diameter,
     liftingGasMass self nozzleLift balloonMass ambientTempC ambientPressMbar
       gasMolecularMass excessPressureCoefficient
     = Ok [gasMass; volume; diameter]
     /\ 0 < volume
     /\ volume * gasDensity = gasMass).
Proof.
  intros gasDensity airDensity balloonVolume. split.
  - intros HT Hne Hvol. now apply liftingGasMass_returns.
  - intros Hgt Hlift.
    assert (HT : ambientTempC + 273.15 <> 0).
    { intros HT.
      destruct (densities_at_absolute_zero excessPressureCoefficient
                  ambientPressMbar gasMolecularMass ambientTempC HT)
        as [Hg Ha].
      unfold airDensity, gasDensity in Hgt. lra. }
    assert (Hpos : 0 < balloonVolume).
    { unfold balloonVolume. apply Rdiv_lt_0_compat; lra. }
    destruct (liftingGasMass_returns self nozzleLift balloonMass ambientTempC
                ambientPressMbar gasMolecularMass excessPressureCoefficient)
      as (d & Hcall & _); [exact HT | | |].
    + unfold airDensity, gasDensity in Hgt. lra.
    + left. exact Hpos.
    + exists (balloonVolume * gasDensity), balloonVolume, d. auto.
Qed.

Lemma liftingGasMass_sizing_witness :
  (airDensity_formula 1013.25 15
   > gasDensity_formula 1 1013.25 HeMolecularMass 15
   /\ 1 + 0.5 > 0)
  /\ exists gasMass volume diameter,
       liftingGasMass unset 1 0.5 15 1013.25 HeMolecularMass 1
       = Ok [gasMass; volume; diameter]
       /\ 0 < volume
       /\ volume * gasDensity_formula 1 1013.25 HeMolecularMass 15 = gasMass.
Proof.
  split; [split; [exact helium_lighter_than_air | lra] |].
  apply (proj2 (liftingGasMass_sizing unset 1 0.5 15 1013.25 HeMolecularMass 1));
    [exact helium_lighter_than_air | lra].
Defined.

(** C1 as stated fails.  With a gas of the molecular mass of air and no excess
    pressure the two densities are equal, and the division that computes the
    volume raises: no list is returned. *)
Lemma liftingGasMass_equal_densities_raises :
  liftingGasMass unset 1 0.5 15 1013.25 airMolecularMass 1
  = Raise ZeroDivisionError
  /\ ~ (exists gasMass balloonVolume balloonDiameter,
          liftingGasMass unset 1 0.5 15 1013.25 airMolecularMass 1
          = Ok [gasMass; balloonVolume; balloonDiameter]).
Proof.
  assert (H : liftingGasMass unset 1 0.5 15 1013.25 airMolecularMass 1
              = Raise ZeroDivisionError).
  { unfold liftingGasMass.
    pose proof (kelvin_nonzero 15) as HK.
    do 2 (rewrite float_div_ok by (apply HK; lra); cbn [bind]).
    replace (1013.25 * 100 * airMolecularMass / (R_gas * (15 + 273.15))
             - 1 * 1013.25 * 100 * airMolecularMass / (R_gas * (15 + 273.15)))
      with 0 by (unfold Rdiv; ring).
    rewrite float_div_zero. reflexivity. }
  split; [exact H |].
  intros (g & v & d & Hok). rewrite H in Hok. discriminate.
Qed.

(** ** Continuity of a function that may raise *)

(** A function that returns near [x0] and whose values move away from the
    one at [x0] at most linearly is continuous at [x0]. *)
Lemma continuous_at_of_slope (g : R -> result R) (x0 y0 s r : R) :
  0 < r ->
  g x0 = Ok y0 ->
  (forall x, Rabs (x - x0) < r ->
     exists y, g x = Ok y /\ (y = y0 \/ y - y0 = s * (x0 - x))) ->
  continuous_at g x0.
Proof.
  intros Hr H0 Hnear. exists y0. split; [exact H0 |].
  intros eps Heps.
  pose proof (Rabs_pos s) as Hs.
  assert (Hq : 0 < eps / (Rabs s + 1)) by (apply Rdiv_lt_0_compat; lra).
  exists (Rmin r (eps / (Rabs s + 1))). split; [now apply Rmin_pos |].
  intros x Hx.
  assert (Hxr : Rabs (x - x0) < r).
  { eapply Rlt_le_trans; [exact Hx | apply Rmin_l]. }
  assert (Hxe : Rabs (x - x0) < eps / (Rabs s + 1)).
  { eapply Rlt_le_trans; [exact Hx | apply Rmin_r]. }
  destruct (Hnear x Hxr) as (y & Hy & [-> | Hdiff]).
  - exists y0. split; [exact Hy |].
    replace (y0 - y0) with 0 by ring. rewrite Rabs_R0. exact Heps.
  - exists y. split; [exact Hy |].
    rewrite Hdiff, Rabs_mult, (Rabs_minus_sym x0 x).
    pose proof (Rabs_pos (x - x0)) as Hd.
    apply Rle_lt_trans with ((Rabs s + 1) * Rabs (x - x0)).
    + apply Rmult_le_compat_r; lra.
    + apply Rmult_lt_reg_r with (/ (Rabs s + 1)).
      * apply Rinv_0_lt_compat. lra.
      * replace ((Rabs s + 1) * Rabs (x - x0) * / (Rabs s + 1))
          with (Rabs (x - x0)) by (field; lra).
        exact Hxe.
Qed.

(** ** Float gas profile *)

Section GasMassForFloat.

Variable self : flight_tools.
Variables floatingAltitude gasMassAtInflation gasMassAtFloatingAltitude : R.
Variable ventStart : R.

Let profile (currentAltitude : R) : result R :=
  gasMassForFloat self currentAltitude floatingAltitude gasMassAtInflation
    gasMassAtFloatingAltitude ventStart.

Lemma gasMassForFloat_before (currentAltitude : R) :
  currentAltitude < floatingAltitude - ventStart ->
  profile currentAltitude = Ok gasMassAtInflation.
Proof.
  intros H. unfold profile, gasMassForFloat.
  destruct (Rlt_dec _ _) as [_ | N]; [reflexivity | contradiction].
Qed.

Lemma gasMassForFloat_after (currentAltitude : R) :
  floatingAltitude - ventStart <= currentAltitude ->
  floatingAltitude <= currentAltitude ->
  profile currentAltitude = Ok gasMassAtFloatingAltitude.
Proof.
  intros H1 H2. unfold profile, gasMassForFloat.
  destruct (Rlt_dec _ _) as [L | _]; [lra |].
  destruct (Rlt_dec _ _) as [L | _]; [lra | reflexivity].
Qed.



Hypothesis ventStart_pos : 0 < ventStart.


Lemma interpolation_at_float :
  interpolation floatingAltitude floatingAltitude
    gasMassAtInflation gasMassAtFloatingAltitude ventStart
  = gasMassAtFloatingAltitude.
Proof. unfold interpolation. field. lra. Qed.




End GasMassForFloat.





(** ** Float nozzle lift *)

(** C4.  [nozzleLiftForFloat] has one threshold: below floatingAltitude -
    ventStart it returns the nozzle lift at inflation unchanged, and at every
    altitude from the threshold on, above floatingAltitude too, it returns
    (airDensity - gasDensity) * balloonVolume - balloonMass. *)
Theorem nozzleLiftForFloat_two_regions (self : flight_tools)
    (nozzleLiftAtInflation airDensity gasDensity balloonVolume balloonMass
     currentAltitude floatingAltitude ventStart : R) :
  (currentAltitude < floatingAltitude - ventStart ->
   nozzleLiftForFloat self nozzleLiftAtInflation airDensity gasDensity
     balloonVolume balloonMass currentAltitude floatingAltitude ventStart
   = Ok nozzleLiftAtInflation)
  /\ (currentAltitude >= floatingAltitude - ventStart ->
      nozzleLiftForFloat self nozzleLiftAtInflation airDensity gasDensity
        balloonVolume balloonMass currentAltitude floatingAltitude ventStart
      = Ok ((airDensity - gasDensity) * balloonVolume - balloonMass)).
Proof.
  unfold nozzleLiftForFloat. split; intros H.
  - destruct (Rlt_dec _ _) as [_ | N]; [reflexivity | contradiction].
  - destruct (Rlt_dec _ _) as [L | _]; [lra | reflexivity].
Qed.

Lemma nozzleLiftForFloat_two_regions_witness :
  (29000 < 30000 - 500
   /\ nozzleLiftForFloat unset 1 1.2 0.2 2 0.5 29000 30000 500 = Ok 1)
  /\ (29500 >= 30000 - 500
      /\ nozzleLiftForFloat unset 1 1.2 0.2 2 0.5 29500 30000 500
         = Ok ((1.2 - 0.2) * 2 - 0.5))
  /\ (31000 >= 30000 - 500
      /\ nozzleLiftForFloat unset 1 1.2 0.2 2 0.5 31000 30000 500
         = Ok ((1.2 - 0.2) * 2 - 0.5)).
Proof.
  assert (H1 : 29000 < 30000 - 500) by lra.
  assert (H2 : 29500 >= 30000 - 500) by lra.
  assert (H3 : 31000 >= 30000 - 500) by lra.
  split; [split; [exact H1 |] | split; (split; [assumption |])].
  - exact (proj1 (nozzleLiftForFloat_two_regions unset 1 1.2 0.2 2 0.5
                    29000 30000 500) H1).
  - exact (proj2 (nozzleLiftForFloat_two_regions unset 1 1.2 0.2 2 0.5
                    29500 30000 500) H2).
  - exact (proj2 (nozzleLiftForFloat_two_regions unset 1 1.2 0.2 2 0.5
                    31000 30000 500) H3).
Defined.

(** ** Balloon drag *)

Section BalloonCD.

Variable self : flight_tools.

Lemma balloonCD_high (reynoldsNumber : R) :
  reynoldsNumber < transition self * 1e5 ->
  balloonCD self reynoldsNumber = Ok (highCD self).
Proof.
  intros H. unfold balloonCD.
  destruct (Rlt_dec _ _) as [_ | N]; [reflexivity | contradiction].
Qed.

Lemma balloonCD_blend (reynoldsNumber : R) :
  transition self * 1e5 <= reynoldsNumber
  < (transition self + ReBand self) * 1e5 ->
  balloonCD self reynoldsNumber
  = Ok (highCD self
        - (highCD self - lowCD self)
          * ((reynoldsNumber - transition self * 1e5)
             / (ReBand self * 1e5))).
Proof.
  intros [H1 H2]. unfold balloonCD.
  destruct (Rlt_dec _ _) as [L | _]; [lra |].
  destruct (Rlt_dec _ _) as [_ | N]; [| contradiction].
  rewrite float_div_ok by lra. reflexivity.
Qed.

Lemma balloonCD_low (reynoldsNumber : R) :
  transition self * 1e5 <= reynoldsNumber ->
  (transition self + ReBand self) * 1e5 <= reynoldsNumber ->
  balloonCD self reynoldsNumber = Ok (lowCD self).
Proof.
  intros H1 H2. unfold balloonCD.
  destruct (Rlt_dec _ _) as [L | _]; [lra |].
  destruct (Rlt_dec _ _) as [L | _]; [lra | reflexivity].
Qed.

(** The coefficient block never divides by zero, and its value lies between
    the two configured coefficients. *)
Lemma balloonCD_between (reynoldsNumber : R) :
  exists cd,
    balloonCD self reynoldsNumber = Ok cd
    /\ Rmin (highCD self) (lowCD self) <= cd
       <= Rmax (highCD self) (lowCD self).
Proof.
  pose proof (Rmin_l (highCD self) (lowCD self)).
  pose proof (Rmin_r (highCD self) (lowCD self)).
  pose proof (Rmax_l (highCD self) (lowCD self)).
  pose proof (Rmax_r (highCD self) (lowCD self)).
  destruct (Rlt_dec reynoldsNumber (transition self * 1e5)) as [A | A].
  - eexists. split; [now apply balloonCD_high | lra].
  - destruct (Rlt_dec reynoldsNumber ((transition self + ReBand self) * 1e5))
      as [B | B].
    + eexists. split; [apply balloonCD_blend; lra |].
      set (w := (reynoldsNumber - transition self * 1e5)
                / (ReBand self * 1e5)).
      assert (Hw : 0 <= w < 1).
      { unfold w. split.
        - apply Rmult_le_pos; [lra |]. left. apply Rinv_0_lt_compat. lra.
        - apply Rmult_lt_reg_r with (ReBand self * 1e5); [lra |].
          replace ((reynoldsNumber - transition self * 1e5)
                   / (ReBand self * 1e5) * (ReBand self * 1e5))
            with (reynoldsNumber - transition self * 1e5) by (field; lra).
          lra. }
      split; nra.
    + eexists. split; [apply balloonCD_low; lra | lra].
Qed.

Hypothesis ReBand_pos : 0 < ReBand self.

Lemma balloonCD_at_transition :
  balloonCD self (transition self * 1e5) = Ok (highCD self).
Proof.
  rewrite balloonCD_blend by lra. f_equal. field. lra.
Qed.

Lemma balloonCD_at_band_end :
  balloonCD self ((transition self + ReBand self) * 1e5) = Ok (lowCD self).
Proof. apply balloonCD_low; lra. Qed.

Lemma balloonCD_continuous_at_transition :
  continuous_at (balloonCD self) (transition self * 1e5).
Proof.
  apply continuous_at_of_slope
    with (y0 := highCD self) (r := ReBand self * 1e5)
         (s := (highCD self - lowCD self) / (ReBand self * 1e5)).
  - lra.
  - exact balloonCD_at_transition.
  - intros x Hx. apply Rabs_def2 in Hx. destruct Hx as [Hx1 Hx2].
    destruct (Rlt_dec x (transition self * 1e5)) as [A | A].
    + eexists. split; [now apply balloonCD_high | now left].
    + eexists. split; [apply balloonCD_blend; lra |].
      right. field. lra.
Qed.

Lemma balloonCD_continuous_at_band_end :
  continuous_at (balloonCD self) ((transition self + ReBand self) * 1e5).
Proof.
  apply continuous_at_of_slope
    with (y0 := lowCD self) (r := ReBand self * 1e5)
         (s := (highCD self - lowCD self) / (ReBand self * 1e5)).
  - lra.
  - exact balloonCD_at_band_end.
  - intros x Hx. apply Rabs_def2 in Hx. destruct Hx as [Hx1 Hx2].
    destruct (Rlt_dec x ((transition self + ReBand self) * 1e5)) as [B | B].
    + eexists. split; [apply balloonCD_blend; lra |].
      right. field. lra.
    + eexists. split; [apply balloonCD_low; lra | now left].
Qed.

End BalloonCD.

(** With a viscosity that is not zero, the drag is the drag equation on the
    coefficient that the block gives at the Reynolds number. *)
Lemma balloonDrag_unfold (self : flight_tools)
    (diameter ascentRate density viscosity : R) :
  viscosity <> 0 ->
  balloonDrag self diameter ascentRate density viscosity
  = (cd <- balloonCD self (density * Rabs ascentRate * diameter / viscosity) ;;
     Ok (0.5 * density * ascentRate ^ 2 * (PI * diameter ^ 2 / 4) * cd)).
Proof.
  intros Hv. unfold balloonDrag.
  rewrite !float_pow_two, (float_div_ok _ viscosity Hv). cbn [bind].
  destruct (balloonCD self _) as [cd | e]; cbn [bind]; [| reflexivity].
  py_step. rewrite pow2_abs. reflexivity.
Qed.


Lemma balloonCD_unset (reynoldsNumber : R) :
  balloonCD unset reynoldsNumber = Ok 0.
Proof.
  unfold balloonCD. cbn [transition ReBand highCD lowCD unset].
  destruct (Rlt_dec _ _) as [A | A]; [reflexivity |].
  destruct (Rlt_dec _ _) as [B | B]; [lra | reflexivity].
Qed.

Lemma parachuteDrag_unfold (self : flight_tools) (descentRate density : R) :
  parachuteDrag self descentRate density
  = Ok (0.5 * density * descentRate ^ 2 * parachuteAref self
        * parachuteCD self).
Proof. unfold parachuteDrag. py_step. reflexivity. Qed.

(** C3.  With ReBand > 0, when the Reynolds number density * |ascentRate| *
    diameter / viscosity is exactly transition * 1e5 the drag is computed with
    highCD, and when it is exactly (transition + ReBand) * 1e5 with lowCD.
    The coefficient, as a function of the Reynolds number, takes these values
    at the two boundaries and is continuous at both. *)
Theorem balloonDrag_band_boundaries (self : flight_tools)
    (diameter ascentRate density viscosity : R) :
  0 < ReBand self ->
  viscosity <> 0 ->
  let reynoldsNumber := density * Rabs ascentRate * diameter / viscosity in
  let drag := fun balloonCD =>
    0.5 * density * ascentRate ^ 2 * (PI * diameter ^ 2 / 4) * balloonCD in
  (reynoldsNumber = transition self * 1e5 ->
   balloonDrag self diameter ascentRate density viscosity
   = Ok (drag (highCD self)))
  /\ (reynoldsNumber = (transition self + ReBand self) * 1e5 ->
      balloonDrag self diameter ascentRate density viscosity
      = Ok (drag (lowCD self)))
  /\ balloonCD self (transition self * 1e5) = Ok (highCD self)
  /\ balloonCD self ((transition self + ReBand self) * 1e5) = Ok (lowCD self)
  /\ continuous_at (balloonCD self) (transition self * 1e5)
  /\ continuous_at (balloonCD self) ((transition self + ReBand self) * 1e5).
Proof.
  intros HB Hv reynoldsNumber drag. repeat split.
  - intros HRe. rewrite balloonDrag_unfold by exact Hv.
    fold reynoldsNumber. rewrite HRe, balloonCD_at_transition by exact HB.
    reflexivity.
  - intros HRe. rewrite balloonDrag_unfold by exact Hv.
    fold reynoldsNumber. rewrite HRe, balloonCD_at_band_end by exact HB.
    reflexivity.
  - now apply balloonCD_at_transition.
  - now apply balloonCD_at_band_end.
  - now apply balloonCD_continuous_at_transition.
  - now apply balloonCD_continuous_at_band_end.
Qed.

Lemma balloonDrag_band_boundaries_witness :
  (0 < ReBand calibrated /\ 1e-5 <> 0
   /\ 0.33 * Rabs 5 * 2 / 1e-5 = transition calibrated * 1e5)
  /\ balloonDrag calibrated 2 5 0.33 1e-5
     = Ok (0.5 * 0.33 * 5 ^ 2 * (PI * 2 ^ 2 / 4) * highCD calibrated).
Proof.
  assert (HB : 0 < ReBand calibrated) by (cbn; lra).
  assert (Hv : 1e-5 <> 0) by lra.
  assert (HRe : 0.33 * Rabs 5 * 2 / 1e-5 = transition calibrated * 1e5).
  { rewrite Rabs_pos_eq by lra. cbn. lra. }
  split; [auto |].
  exact (proj1 (balloonDrag_band_boundaries calibrated 2 5 0.33 1e-5 HB Hv)
           HRe).
Defined.

(** C6.  [balloonDrag] does not depend on the sign of the ascent rate: at
    ascentRate and at - ascentRate it has the same outcome. *)
Theorem balloonDrag_sign_symmetric (self : flight_tools)
    (diameter ascentRate density viscosity : R) :
  balloonDrag self diameter ascentRate density viscosity
  = balloonDrag self diameter (- ascentRate) density viscosity.
Proof. unfold balloonDrag. rewrite Rabs_Ropp. reflexivity. Qed.




(** ** Parachute drag *)

(** C8.  [parachuteDrag] returns 0.5 * density * descentRate^2 *
    parachuteAref * parachuteCD, and at twice the descent rate it returns
    four times the drag. *)
Theorem parachuteDrag_quadratic (self : flight_tools)
    (descentRate density : R) :
  parachuteDrag self descentRate density
  = Ok (0.5 * density * descentRate ^ 2 * parachuteAref self
        * parachuteCD self)
  /\ exists drag,
       parachuteDrag self descentRate density = Ok drag
       /\ parachuteDrag self (2 * descentRate) density = Ok (4 * drag).
Proof.
  split; [apply parachuteDrag_unfold |].
  eexists. split; [apply parachuteDrag_unfold |].
  rewrite parachuteDrag_unfold. f_equal. ring.
Qed.

(** ** Calibration left unset *)

(** C9.  On an instance whose calibration attributes are the zeros of the
    class body, [balloonDrag] returns 0 for every input with a viscosity that
    is not zero and [parachuteDrag] returns 0 for every input: nothing is
    raised for the missing calibration. *)
Theorem unset_calibration_gives_zero_drag
    (diameter ascentRate density viscosity descentRate : R) :
  (viscosity <> 0 ->
   balloonDrag unset diameter ascentRate density viscosity = Ok 0)
  /\ parachuteDrag unset descentRate density = Ok 0.
Proof.
  split.
  - intros Hv. rewrite balloonDrag_unfold by exact Hv.
    rewrite balloonCD_unset. cbn [bind]. f_equal. ring.
  - rewrite parachuteDrag_unfold. cbn [parachuteAref parachuteCD unset].
    f_equal. ring.
Qed.

Lemma unset_calibration_gives_zero_drag_witness :
  1.8e-5 <> 0
  /\ balloonDrag unset 2 5 1.2 1.8e-5 = Ok 0
  /\ parachuteDrag unset 7 1.2 = Ok 0.
Proof.
  assert (Hv : 1.8e-5 <> 0) by lra.
  split; [exact Hv |].
  destruct (unset_calibration_gives_zero_drag 2 5 1.2 1.8e-5 7) as [Hb Hp].
  split; [exact (Hb Hv) | exact Hp].
Defined.

(** ** Exceptions *)

Lemma liftingGasMass_equal_densities (self : flight_tools)
    (nozzleLift balloonMass ambientTempC ambientPressMbar gasMolecularMass
     excessPressureCoefficient : R) :
  airDensity_formula ambientPressMbar ambientTempC
  = gasDensity_formula excessPressureCoefficient ambientPressMbar
      gasMolecularMass ambientTempC ->
  liftingGasMass self nozzleLift balloonMass ambientTempC ambientPressMbar
    gasMolecularMass excessPressureCoefficient
  = Raise ZeroDivisionError.
Proof.
  intros Heq. unfold liftingGasMass.
  destruct (Req_dec_T (ambientTempC + 273.15) 0) as [HT | HT].
  - rewrite HT, Rmult_0_r, float_div_zero. reflexivity.
  - pose proof (kelvin_nonzero ambientTempC HT) as HK.
    do 2 py_step.
    fold (gasDensity_formula excessPressureCoefficient ambientPressMbar
            gasMolecularMass ambientTempC)
         (airDensity_formula ambientPressMbar ambientTempC).
    rewrite Heq, Rminus_diag, float_div_zero. reflexivity.
Qed.


(** A gas denser than the air gives a negative volume, and the fractional
    power that should give the diameter is refused. *)
Lemma liftingGasMass_negative_volume (self : flight_tools)
    (nozzleLift balloonMass ambientTempC ambientPressMbar gasMolecularMass
     excessPressureCoefficient : R) :
  ambientTempC + 273.15 <> 0 ->
  airDensity_formula ambientPressMbar ambientTempC
  <> gasDensity_formula excessPressureCoefficient ambientPressMbar
       gasMolecularMass ambientTempC ->
  (nozzleLift + balloonMass)
  / (airDensity_formula ambientPressMbar ambientTempC
     - gasDensity_formula excessPressureCoefficient ambientPressMbar
         gasMolecularMass ambientTempC) < 0 ->
  liftingGasMass self nozzleLift balloonMass ambientTempC ambientPressMbar
    gasMolecularMass excessPressureCoefficient
  = Raise ValueError.
Proof.
  intros HT Hne Hvol.
  pose proof (kelvin_nonzero ambientTempC HT) as HK.
  pose proof PI_RGT_0 as Hpi.
  unfold liftingGasMass.
  do 2 py_step.
  fold (gasDensity_formula excessPressureCoefficient ambientPressMbar
          gasMolecularMass ambientTempC)
       (airDensity_formula ambientPressMbar ambientTempC).
  set (air := airDensity_formula _ _) in *.
  set (gas := gasDensity_formula _ _ _ _) in *.
  assert (Hd : air - gas <> 0) by lra.
  do 3 py_step.
  rewrite float_pow_third_negative; [reflexivity |].
  set (V := (nozzleLift + balloonMass) / (air - gas)) in *.
  apply Ropp_lt_cancel. rewrite Ropp_0.
  replace (- (6 * V / PI)) with (6 * (- V) / PI) by (field; lra).
  apply Rdiv_lt_0_compat; lra.
Qed.





(** * Further properties of the methods *)

(** ** Lifting gas sizing: what the result depends on *)

(** The difference of the two densities is the ideal gas law applied to the
    difference of the molecular masses. *)
Lemma density_gap (k P M T : R) :
  T + 273.15 <> 0 ->
  airDensity_formula P T - gasDensity_formula k P M T
  = P * 100 * (airMolecularMass - k * M) / (R_gas * (T + 273.15)).
Proof.
  intros HT. unfold airDensity_formula, gasDensity_formula.
  pose proof gas_constant_pos. field. split; lra.
Qed.

Lemma density_gap_pos (k P M T : R) :
  0 < P -> 0 < T + 273.15 -> k * M < airMolecularMass ->
  0 < airDensity_formula P T - gasDensity_formula k P M T.
Proof.
  intros HP HT HM. rewrite density_gap by lra.
  pose proof gas_constant_pos.
  apply Rdiv_lt_0_compat.
  - apply Rmult_lt_0_compat; [apply Rmult_lt_0_compat |]; lra.
  - apply Rmult_lt_0_compat; lra.
Qed.


Lemma liftingGasMass_lighter_than_air (self : flight_tools)
    (nl bm T P M k : R) :
  0 < P -> 0 < T + 273.15 -> k * M < airMolecularMass -> 0 <= nl + bm ->
  exists d,
    liftingGasMass self nl bm T P M k
    = Ok [ (nl + bm) * (k * M) / (airMolecularMass - k * M);
           (nl + bm) * R_gas * (T + 273.15)
           / (P * 100 * (airMolecularMass - k * M));
           d ]
    /\ 0 <= d
    /\ d ^ 3
       = 6 * ((nl + bm) * R_gas * (T + 273.15)
              / (P * 100 * (airMolecularMass - k * M))) / PI.
Proof.
  intros HP HT HM HL.
  pose proof (density_gap_pos k P M T HP HT HM) as Hgap.
  pose proof gas_constant_pos as HR.
  destruct (liftingGasMass_returns self nl bm T P M k)
    as (d & Hcall & Hd0 & Hd3); [lra | lra | |].
  - apply Rmult_le_pos; [exact HL |]. left. now apply Rinv_0_lt_compat.
  - assert (HV : (nl + bm)
                 / (airDensity_formula P T - gasDensity_formula k P M T)
                 = (nl + bm) * R_gas * (T + 273.15)
                   / (P * 100 * (airMolecularMass - k * M))).
    { rewrite density_gap by lra. field. repeat split; lra. }
    exists d. rewrite Hcall, Hd3, HV. split; [| split; [exact Hd0 | reflexivity]].
    f_equal. f_equal. unfold gasDensity_formula. field. repeat split; lra.
Qed.



Lemma Rdiv_lt_cross (a b c d : R) :
  0 < b -> 0 < d -> a * d < c * b -> a / b < c / d.
Proof.
  intros Hb Hd H.
  apply Rmult_lt_reg_r with (b * d); [now apply Rmult_lt_0_compat |].
  replace (a / b * (b * d)) with (a * d) by (field; lra).
  replace (c / d * (b * d)) with (c * b) by (field; lra).
  exact H.
Qed.

Lemma cube_lt_inv (x y : R) : 0 <= x -> 0 <= y -> x ^ 3 < y ^ 3 -> x < y.
Proof.
  intros Hx Hy H. apply Rnot_le_lt. intros Hle.
  assert (y ^ 3 <= x ^ 3) by (apply pow_incr; lra). lra.
Qed.



(** X3.  [liftingGasMass] raises ZeroDivisionError exactly when the
    temperature is -273.15 C or the gas density equals the air density. *)
Theorem liftingGasMass_zero_division_iff (self : flight_tools)
    (nozzleLift balloonMass ambientTempC ambientPressMbar gasMolecularMass
     excessPressureCoefficient : R) :
  liftingGasMass self nozzleLift balloonMass ambientTempC ambientPressMbar
    gasMolecularMass excessPressureCoefficient
  = Raise ZeroDivisionError
  <-> (ambientTempC + 273.15 = 0
       \/ airDensity_formula ambientPressMbar ambientTempC
          = gasDensity_formula excessPressureCoefficient ambientPressMbar
              gasMolecularMass ambientTempC).
Proof.
  set (air := airDensity_formula ambientPressMbar ambientTempC).
  set (gas := gasDensity_formula excessPressureCoefficient ambientPressMbar
                gasMolecularMass ambientTempC).
  split.
  - intros Hraise.
    destruct (Req_dec_T (ambientTempC + 273.15) 0) as [HT | HT];
      [now left |].
    destruct (Req_dec_T air gas) as [Heq | Hne]; [now right |].
    exfalso.
    destruct (Rlt_dec ((nozzleLift + balloonMass) / (air - gas)) 0)
      as [Hneg | Hpos].
    + rewrite liftingGasMass_negative_volume in Hraise by assumption.
      discriminate.
    + destruct (liftingGasMass_returns self nozzleLift balloonMass
                  ambientTempC ambientPressMbar gasMolecularMass
                  excessPressureCoefficient HT Hne)
        as (d & Hcall & _); [fold air gas; lra |].
      rewrite Hcall in Hraise. discriminate.
  - intros [HT | Heq].
    + apply liftingGasMass_equal_densities.
      destruct (densities_at_absolute_zero excessPressureCoefficient
                  ambientPressMbar gasMolecularMass ambientTempC HT)
        as [Hg Ha].
      now rewrite Hg, Ha.
    + now apply liftingGasMass_equal_densities.
Qed.

Lemma hydrogen_lighter_than_helium :
  HydrogenMolecularMass < HeMolecularMass
  /\ 1 * HeMolecularMass < airMolecularMass.
Proof.
  unfold HydrogenMolecularMass, HeMolecularMass, airMolecularMass. lra.
Qed.

(** X4.  A lighter gas gives a smaller balloon.  At the same positive
    pressure, temperature above absolute zero, positive excess pressure
    coefficient and positive lift, of two gases lighter than air the one with
    the smaller molecular mass is sized with less gas mass, a smaller volume
    and a smaller diameter. *)
Theorem liftingGasMass_increases_with_molecular_mass (self : flight_tools)
    (nozzleLift balloonMass ambientTempC ambientPressMbar
     excessPressureCoefficient lighter heavier : R) :
  0 < ambientPressMbar ->
  0 < ambientTempC + 273.15 ->
  0 < nozzleLift + balloonMass ->
  0 < excessPressureCoefficient ->
  lighter < heavier ->
  excessPressureCoefficient * heavier < airMolecularMass ->
  exists gasMass1 volume1 diameter1 gasMass2 volume2 diameter2,
    liftingGasMass self nozzleLift balloonMass ambientTempC ambientPressMbar
      lighter excessPressureCoefficient
    = Ok [gasMass1; volume1; diameter1]
    /\ liftingGasMass self nozzleLift balloonMass ambientTempC
         ambientPressMbar heavier excessPressureCoefficient
       = Ok [gasMass2; volume2; diameter2]
    /\ gasMass1 < gasMass2
    /\ volume1 < volume2
    /\ diameter1 < diameter2.
Proof.
  intros HP HT HL Hk HM Hair.
  assert (Hx : excessPressureCoefficient * lighter
               < excessPressureCoefficient * heavier)
    by now apply Rmult_lt_compat_l.
  assert (HA : 0 < airMolecularMass) by (unfold airMolecularMass; lra).
  pose proof gas_constant_pos as HR.
  destruct (liftingGasMass_lighter_than_air self nozzleLift balloonMass
              ambientTempC ambientPressMbar lighter
              excessPressureCoefficient)
    as (d1 & Hcall1 & Hd1 & Hcube1); [lra | lra | lra | lra |].
  destruct (liftingGasMass_lighter_than_air self nozzleLift balloonMass
              ambientTempC ambientPressMbar heavier
              excessPressureCoefficient)
    as (d2 & Hcall2 & Hd2 & Hcube2); [lra | lra | lra | lra |].
  set (L := nozzleLift + balloonMass) in *.
  set (k := excessPressureCoefficient) in *.
  set (x1 := k * lighter) in *. set (x2 := k * heavier) in *.
  set (Tk := ambientTempC + 273.15) in *.
  assert (HN : 0 < L * R_gas * Tk).
  { apply Rmult_lt_0_compat; [apply Rmult_lt_0_compat |]; lra. }
  assert (Hc : 0 < ambientPressMbar * 100) by lra.
  assert (HV : L * R_gas * Tk / (ambientPressMbar * 100 * (airMolecularMass - x1))
               < L * R_gas * Tk
                 / (ambientPressMbar * 100 * (airMolecularMass - x2))).
  { apply Rdiv_lt_cross.
    - apply Rmult_lt_0_compat; lra.
    - apply Rmult_lt_0_compat; lra.
    - apply Rmult_lt_compat_l; [exact HN |].
      apply Rmult_lt_compat_l; lra. }
  do 6 eexists. split; [exact Hcall1 |]. split; [exact Hcall2 |].
  split; [| split; [exact HV |]].
  - apply Rdiv_lt_cross; [lra | lra |].
    replace (L * x1 * (airMolecularMass - x2))
      with (L * (x1 * airMolecularMass - x1 * x2)) by ring.
    replace (L * x2 * (airMolecularMass - x1))
      with (L * (x2 * airMolecularMass - x1 * x2)) by ring.
    apply Rmult_lt_compat_l; [exact HL |].
    assert (x1 * airMolecularMass < x2 * airMolecularMass)
      by (apply Rmult_lt_compat_r; lra).
    lra.
  - apply cube_lt_inv; [exact Hd1 | exact Hd2 |].
    rewrite Hcube1, Hcube2.
    pose proof PI_RGT_0 as Hpi.
    apply Rmult_lt_compat_r; [now apply Rinv_0_lt_compat |].
    apply Rmult_lt_compat_l; [lra | exact HV].
Qed.

Lemma liftingGasMass_increases_with_molecular_mass_witness :
  (0 < 1013.25 /\ 0 < 15 + 273.15 /\ 0 < 1 + 0.5 /\ 0 < 1
   /\ HydrogenMolecularMass < HeMolecularMass
   /\ 1 * HeMolecularMass < airMolecularMass)
  /\ exists gasMass1 volume1 diameter1 gasMass2 volume2 diameter2,
       liftingGasMass unset 1 0.5 15 1013.25 HydrogenMolecularMass 1
       = Ok [gasMass1; volume1; diameter1]
       /\ liftingGasMass unset 1 0.5 15 1013.25 HeMolecularMass 1
          = Ok [gasMass2; volume2; diameter2]
       /\ gasMass1 < gasMass2
       /\ volume1 < volume2
       /\ diameter1 < diameter2.
Proof.
  assert (HP : 0 < 1013.25) by lra.
  assert (HT : 0 < 15 + 273.15) by lra.
  assert (HL : 0 < 1 + 0.5) by lra.
  assert (Hk : 0 < 1) by lra.
  destruct hydrogen_lighter_than_helium as [HM Hair].
  split; [auto 10 |].
  exact (liftingGasMass_increases_with_molecular_mass unset 1 0.5 15 1013.25
           1 HydrogenMolecularMass HeMolecularMass HP HT HL Hk HM Hair).
Defined.

(** ** Ramps *)

(** The venting profile and the drag coefficient have the same shape: a
    constant, then an affine piece, then the constant that the affine piece
    reaches. *)
Section Ramp.

Variable g : R -> result R.
Variables lo hi ya s : R.
Hypothesis lo_lt_hi : lo < hi.
Hypothesis g_below : forall x, x < lo -> g x = Ok ya.
Hypothesis g_inside :
  forall x, lo <= x < hi -> g x = Ok (ya + s * (x - lo)).
Hypothesis g_above : forall x, hi <= x -> g x = Ok (ya + s * (hi - lo)).





End Ramp.

(** ** Float gas profile: the whole altitude range *)

Lemma gasMassForFloat_step (self : flight_tools)
    (currentAltitude floatingAltitude gasMassAtInflation
     gasMassAtFloatingAltitude ventStart : R) :
  ventStart <= 0 ->
  (currentAltitude < floatingAltitude - ventStart ->
   gasMassForFloat self currentAltitude floatingAltitude gasMassAtInflation
     gasMassAtFloatingAltitude ventStart = Ok gasMassAtInflation)
  /\ (floatingAltitude - ventStart <= currentAltitude ->
      gasMassForFloat self currentAltitude floatingAltitude gasMassAtInflation
        gasMassAtFloatingAltitude ventStart = Ok gasMassAtFloatingAltitude).
Proof.
  intros Hv. split; intros H.
  - now apply gasMassForFloat_before.
  - apply gasMassForFloat_after; lra.
Qed.

Section GasProfileRamp.

Variable self : flight_tools.
Variables floatingAltitude gasMassAtInflation gasMassAtFloatingAltitude : R.
Variable ventStart : R.
Hypothesis ventStart_pos : 0 < ventStart.

Let profile (altitude : R) : result R :=
  gasMassForFloat self altitude floatingAltitude gasMassAtInflation
    gasMassAtFloatingAltitude ventStart.

Let slope : R :=
  - ((gasMassAtInflation - gasMassAtFloatingAltitude) / ventStart).







End GasProfileRamp.





(** X7.  A ventStart that is zero or negative leaves no venting region:
    [gasMassForFloat] never interpolates, and the mass steps from the
    inflation mass to the float mass at floatingAltitude - ventStart. *)
Theorem gasMassForFloat_without_venting_region (self : flight_tools)
    (currentAltitude floatingAltitude gasMassAtInflation
     gasMassAtFloatingAltitude ventStart : R) :
  ventStart <= 0 ->
  (currentAltitude < floatingAltitude - ventStart ->
   gasMassForFloat self currentAltitude floatingAltitude gasMassAtInflation
     gasMassAtFloatingAltitude ventStart = Ok gasMassAtInflation)
  /\ (floatingAltitude - ventStart <= currentAltitude ->
      gasMassForFloat self currentAltitude floatingAltitude gasMassAtInflation
        gasMassAtFloatingAltitude ventStart = Ok gasMassAtFloatingAltitude).
Proof. apply gasMassForFloat_step. Qed.

Lemma gasMassForFloat_without_venting_region_witness :
  (-500 <= 0 /\ 30200 < 30000 - -500 /\ 30000 - -500 <= 30500)
  /\ gasMassForFloat unset 30200 30000 3 2 (-500) = Ok 3
  /\ gasMassForFloat unset 30500 30000 3 2 (-500) = Ok 2.
Proof.
  assert (Hv : -500 <= 0) by lra.
  assert (H1 : 30200 < 30000 - -500) by lra.
  assert (H2 : 30000 - -500 <= 30500) by lra.
  split; [auto |]. split.
  - exact (proj1 (gasMassForFloat_without_venting_region unset 30200 30000 3 2
                    (-500) Hv) H1).
  - exact (proj2 (gasMassForFloat_without_venting_region unset 30500 30000 3 2
                    (-500) Hv) H2).
Defined.

(** ** Float nozzle lift: the jump *)

Lemma nozzleLiftForFloat_returns_either (self : flight_tools)
    (nozzleLiftAtInflation airDensity gasDensity balloonVolume balloonMass
     currentAltitude floatingAltitude ventStart : R) :
  (currentAltitude < floatingAltitude - ventStart ->
   nozzleLiftForFloat self nozzleLiftAtInflation airDensity gasDensity
     balloonVolume balloonMass currentAltitude floatingAltitude ventStart
   = Ok nozzleLiftAtInflation)
  /\ (floatingAltitude - ventStart <= currentAltitude ->
      nozzleLiftForFloat self nozzleLiftAtInflation airDensity gasDensity
        balloonVolume balloonMass currentAltitude floatingAltitude ventStart
      = Ok ((airDensity - gasDensity) * balloonVolume - balloonMass)).
Proof.
  unfold nozzleLiftForFloat. split; intros H.
  - destruct (Rlt_dec _ _) as [_ | N]; [reflexivity | contradiction].
  - destruct (Rlt_dec _ _) as [L | _]; [lra | reflexivity].
Qed.

(** X8.  [nozzleLiftForFloat] jumps at the venting threshold: unless the lift
    recomputed from the buoyancy relation equals the nozzle lift at
    inflation, the lift is not continuous, as a function of the altitude, at
    floatingAltitude - ventStart. *)
Theorem nozzleLiftForFloat_jumps (self : flight_tools)
    (nozzleLiftAtInflation airDensity gasDensity balloonVolume balloonMass
     floatingAltitude ventStart : R) :
  nozzleLiftAtInflation
  <> (airDensity - gasDensity) * balloonVolume - balloonMass ->
  ~ continuous_at
      (fun altitude =>
         nozzleLiftForFloat self nozzleLiftAtInflation airDensity gasDensity
           balloonVolume balloonMass altitude floatingAltitude ventStart)
      (floatingAltitude - ventStart).
Proof.
  intros Hne (y0 & H0 & Hcont).
  set (lift := (airDensity - gasDensity) * balloonVolume - balloonMass) in *.
  destruct (nozzleLiftForFloat_returns_either self nozzleLiftAtInflation
              airDensity gasDensity balloonVolume balloonMass
              (floatingAltitude - ventStart) floatingAltitude ventStart)
    as [_ Hat].
  rewrite Hat in H0 by lra. injection H0 as <-.
  assert (Heps : 0 < Rabs (nozzleLiftAtInflation - lift)).
  { apply Rabs_pos_lt. lra. }
  destruct (Hcont _ Heps) as (delta & Hdelta & Hnear).
  destruct (Hnear (floatingAltitude - ventStart - delta / 2))
    as (y & Hy & Hclose).
  { replace (floatingAltitude - ventStart - delta / 2
             - (floatingAltitude - ventStart)) with (- (delta / 2)) by ring.
    rewrite Rabs_Ropp, Rabs_pos_eq; lra. }
  destruct (nozzleLiftForFloat_returns_either self nozzleLiftAtInflation
              airDensity gasDensity balloonVolume balloonMass
              (floatingAltitude - ventStart - delta / 2) floatingAltitude
              ventStart)
    as [Hbelow _].
  rewrite Hbelow in Hy by lra. injection Hy as <-.
  exact (Rlt_irrefl _ Hclose).
Qed.

Lemma nozzleLiftForFloat_jumps_witness :
  1 <> (1.2 - 0.2) * 2 - 0.5
  /\ ~ continuous_at
         (fun altitude =>
            nozzleLiftForFloat unset 1 1.2 0.2 2 0.5 altitude 30000 500)
         (30000 - 500).
Proof.
  assert (Hne : 1 <> (1.2 - 0.2) * 2 - 0.5) by lra.
  split; [exact Hne |].
  exact (nozzleLiftForFloat_jumps unset 1 1.2 0.2 2 0.5 30000 500 Hne).
Defined.

(** ** Drag coefficient: the whole Reynolds range *)

Lemma balloonCD_step (self : flight_tools) (reynoldsNumber : R) :
  ReBand self <= 0 ->
  (reynoldsNumber < transition self * 1e5 ->
   balloonCD self reynoldsNumber = Ok (highCD self))
  /\ (transition self * 1e5 <= reynoldsNumber ->
      balloonCD self reynoldsNumber = Ok (lowCD self)).
Proof.
  intros HB. split; intros H.
  - now apply balloonCD_high.
  - apply balloonCD_low; lra.
Qed.

Section BalloonCDRamp.

Variable self : flight_tools.
Hypothesis ReBand_pos : 0 < ReBand self.

Let slope : R := - ((highCD self - lowCD self) / (ReBand self * 1e5)).






End BalloonCDRamp.





(** X11.  A band of zero or negative width leaves no blend: the coefficient
    is highCD below transition * 1e5 and lowCD from transition * 1e5 on, and
    the division by ReBand * 1e5 is never evaluated. *)
Theorem balloonCD_without_band (self : flight_tools) (reynoldsNumber : R) :
  ReBand self <= 0 ->
  (reynoldsNumber < transition self * 1e5 ->
   balloonCD self reynoldsNumber = Ok (highCD self))
  /\ (transition self * 1e5 <= reynoldsNumber ->
      balloonCD self reynoldsNumber = Ok (lowCD self)).
Proof. apply balloonCD_step. Qed.

Lemma balloonCD_without_band_witness :
  let sharp :=
    {| highCD := 0.45; lowCD := 0.2; transition := 3.3; ReBand := 0;
       parachuteAref := 1.5; parachuteCD := 0.9 |} in
  (ReBand sharp <= 0 /\ 3.2e5 < transition sharp * 1e5
   /\ transition sharp * 1e5 <= 3.3e5)
  /\ balloonCD sharp 3.2e5 = Ok 0.45
  /\ balloonCD sharp 3.3e5 = Ok 0.2.
Proof.
  intros sharp.
  assert (HB : ReBand sharp <= 0) by (cbn; lra).
  assert (H1 : 3.2e5 < transition sharp * 1e5) by (cbn; lra).
  assert (H2 : transition sharp * 1e5 <= 3.3e5) by (cbn; lra).
  split; [auto |]. split.
  - exact (proj1 (balloonCD_without_band sharp 3.2e5 HB) H1).
  - exact (proj2 (balloonCD_without_band sharp 3.3e5 HB) H2).
Defined.

(** ** Balloon drag: when it returns and how large it is *)

Lemma balloonDrag_value (self : flight_tools)
    (diameter ascentRate density viscosity : R) :
  viscosity <> 0 ->
  exists cd,
    balloonDrag self diameter ascentRate density viscosity
    = Ok (0.5 * density * ascentRate ^ 2 * (PI * diameter ^ 2 / 4) * cd)
    /\ Rmin (highCD self) (lowCD self) <= cd
       <= Rmax (highCD self) (lowCD self).
Proof.
  intros Hv.
  destruct (balloonCD_between self
              (density * Rabs ascentRate * diameter / viscosity))
    as (cd & Hcd & Hrange).
  exists cd. split; [| exact Hrange].
  rewrite balloonDrag_unfold by exact Hv. rewrite Hcd. reflexivity.
Qed.





(** X14.  With a viscosity that is not zero, a balloon that does not move,
    a balloon of diameter zero and air of density zero all give a drag of
    zero, for every calibration. *)
Theorem balloonDrag_zero (self : flight_tools)
    (diameter ascentRate density viscosity : R) :
  viscosity <> 0 ->
  balloonDrag self diameter 0 density viscosity = Ok 0
  /\ balloonDrag self 0 ascentRate density viscosity = Ok 0
  /\ balloonDrag self diameter ascentRate 0 viscosity = Ok 0.
Proof.
  intros Hv. repeat split.
  - destruct (balloonDrag_value self diameter 0 density viscosity Hv)
      as (cd & Hcall & _).
    rewrite Hcall, pow_ne_zero by discriminate. f_equal. ring.
  - destruct (balloonDrag_value self 0 ascentRate density viscosity Hv)
      as (cd & Hcall & _).
    rewrite Hcall, pow_ne_zero by discriminate. f_equal. field.
  - destruct (balloonDrag_value self diameter ascentRate 0 viscosity Hv)
      as (cd & Hcall & _).
    rewrite Hcall. f_equal. ring.
Qed.

Lemma balloonDrag_zero_witness :
  1.8e-5 <> 0
  /\ balloonDrag calibrated 2 0 1.2 1.8e-5 = Ok 0
  /\ balloonDrag calibrated 0 5 1.2 1.8e-5 = Ok 0
  /\ balloonDrag calibrated 2 5 0 1.8e-5 = Ok 0.
Proof.
  assert (Hv : 1.8e-5 <> 0) by lra.
  split; [exact Hv |].
  exact (balloonDrag_zero calibrated 2 5 1.2 1.8e-5 Hv).
Defined.

(** ** Parachute drag: scaling and sign *)


(** X16.  With a density, a reference area and a drag coefficient that are
    not negative, the parachute drag is not negative, whatever the sign of
    the descent rate; and it is zero at a descent rate of zero. *)
Theorem parachuteDrag_nonnegative (self : flight_tools)
    (descentRate density : R) :
  0 <= density ->
  0 <= parachuteAref self ->
  0 <= parachuteCD self ->
  (exists drag,
     parachuteDrag self descentRate density = Ok drag /\ 0 <= drag)
  /\ parachuteDrag self 0 density = Ok 0.
Proof.
  intros Hd HA HC. split.
  - eexists. split; [apply parachuteDrag_unfold |].
    pose proof (pow2_ge_0 descentRate) as Hv2.
    set (v2 := descentRate ^ 2) in *.
    apply Rmult_le_pos; [| exact HC].
    apply Rmult_le_pos; [| exact HA].
    apply Rmult_le_pos; [| exact Hv2].
    apply Rmult_le_pos; lra.
  - rewrite parachuteDrag_unfold, pow_ne_zero by discriminate.
    f_equal. ring.
Qed.

Lemma parachuteDrag_nonnegative_witness :
  (0 <= 1.2 /\ 0 <= parachuteAref calibrated /\ 0 <= parachuteCD calibrated)
  /\ (exists drag, parachuteDrag calibrated (-7) 1.2 = Ok drag /\ 0 <= drag)
  /\ parachuteDrag calibrated 0 1.2 = Ok 0.
Proof.
  assert (Hd : 0 <= 1.2) by lra.
  assert (HA : 0 <= parachuteAref calibrated) by (cbn; lra).
  assert (HC : 0 <= parachuteCD calibrated) by (cbn; lra).
  split; [auto |].
  exact (parachuteDrag_nonnegative calibrated (-7) 1.2 Hd HA HC).
Defined.

(** ** More on the drag coefficient and on sizing *)





